(** * ManifestSelector: the Kubernetes manifest selector of deck

    A shallow embedding of
    [app/scripts/modules/kubernetes/src/v2/manifest/selector/ManifestSelector.tsx]:
    the name parser, the two mode handlers, the field setters of the
    component, its [search] operation and what [render] derives, followed
    by the properties the specification states about them and by further
    properties of the code.  [normalizeExecutionNames] of
    [app/scripts/modules/core/src/pipeline/executions/Executions.tsx] comes
    with them.

    Conventions of the embedding.
    - A field typed [string] in the TypeScript source can hold [undefined]
      or [null] at run time; such fields are [Js.value].
    - A string is a sequence of code units ([string] of the standard
      library), compared code unit by code unit.
    - The component mutates one selector object that it shares with its
      owner.  The object is the field [selector] of the component; what the
      owner is handed in a call of [onChange] is recorded as the contents of
      the object at the time of the call.
    - A method runs in the monad [M]: it threads the component and either
      returns or raises a [TypeError]; what was mutated before the error
      stays mutated.
    - [setState] is applied at once. *)

From Stdlib Require Import String Ascii List Bool Arith Lia.
From Stdlib Require Import Sorting.Sorted Sorting.Permutation.
Import ListNotations.
Open Scope string_scope.

(** ** The fragment of JavaScript the component relies on *)

Module Js.

(** The run-time values of a field declared [string]. *)
Inductive value : Type :=
| Undefined
| Null
| Str (s : string).

Definition value_eq_dec (a b : value) : {a = b} + {a <> b}.
Proof. decide equality. apply string_dec. Defined.

(** [ToBoolean]: only a non-empty string is truthy. *)
Definition truthy (v : value) : bool :=
  match v with
  | Str s => negb (s =? "")
  | _ => false
  end.

(** [v || d] for a string literal [d], read as a string. *)
Definition or_str (v : value) (d : string) : string :=
  match v with
  | Str s => if s =? "" then d else s
  | _ => d
  end.

(** [a || b] on values. *)
Definition or_else (a b : value) : value := if truthy a then a else b.

(** [ToString], as a template literal applies it. *)
Definition to_string (v : value) : string :=
  match v with
  | Undefined => "undefined"
  | Null => "null"
  | Str s => s
  end.

(** [a === b]. *)
Definition strict_eq (a b : value) : bool :=
  if value_eq_dec a b then true else false.

(** [v == null]: true of [null] and [undefined] only. *)
Definition is_nullish (v : value) : bool :=
  match v with
  | Str _ => false
  | _ => true
  end.

(** [s.split(' ')]: the pieces between the spaces, never an empty array. *)
Fixpoint split (s : string) : list string :=
  match s with
  | EmptyString => [EmptyString]
  | String c s' =>
      if Ascii.eqb c " "
      then EmptyString :: split s'
      else match split s' with
           | [] => [String c EmptyString]
           | t :: ts => String c t :: ts
           end
  end.

(** The [i]-th variable of an array destructuring pattern. *)
Definition item (l : list string) (i : nat) : value :=
  match nth_error l i with
  | Some s => Str s
  | None => Undefined
  end.

(** [hay.includes(needle)]. *)
Fixpoint includes (needle hay : string) : bool :=
  String.prefix needle hay
  || match hay with
     | EmptyString => false
     | String _ hay' => includes needle hay'
     end.

(** [Array.prototype.sort] without a comparator on an array of strings:
    ascending in the order of the code units.  Equal strings are
    indistinguishable, so the result does not depend on the algorithm of
    the engine; insertion sort stands for it. *)
Fixpoint insert (x : string) (l : list string) : list string :=
  match l with
  | [] => [x]
  | y :: l' => if String.leb x y then x :: l else y :: insert x l'
  end.

Definition sort (l : list string) : list string :=
  fold_right insert [] l.

(** A string without a space. *)
Fixpoint no_space (s : string) : bool :=
  match s with
  | EmptyString => true
  | String c s' => negb (Ascii.eqb c " ") && no_space s'
  end.

(** The part of a string before its first space (all of it when there is
    none). *)
Fixpoint before_space (s : string) : string :=
  match s with
  | EmptyString => EmptyString
  | String c s' =>
      if Ascii.eqb c " " then EmptyString else String c (before_space s')
  end.

(** The part of a string after its first space, when there is one. *)
Fixpoint after_space (s : string) : option string :=
  match s with
  | EmptyString => None
  | String c s' => if Ascii.eqb c " " then Some s' else after_space s'
  end.

End Js.

Import Js.

(** ** [parseSpinnakerName] and the packing of a name *)

Record ParsedName : Type := mkParsedName {
  pn_kind : value;
  pn_name : value
}.

(** [const [kind, name] = (spinnakerName || '').split(' ')]. *)
Definition parseSpinnakerName (spinnakerName : value) : ParsedName :=
  let parts := split (or_str spinnakerName "") in
  {| pn_kind := item parts 0; pn_name := item parts 1 |}.

(** The string [handleNameChange] stores for a kind and a selected name:
    [kind ? `${kind} ${selectedName}` : ` ${selectedName}`]. *)
Definition packName (kind selectedName : value) : string :=
  if truthy kind
  then to_string kind ++ " " ++ to_string selectedName
  else " " ++ to_string selectedName.

(** The string the static handler stores for a kind and the name already
    entered: [kind ? (name ? `${kind} ${name}` : kind) : name]. *)
Definition packKind (kind name : value) : value :=
  if truthy kind
  then if truthy name
       then Str (to_string kind ++ " " ++ to_string name)
       else kind
  else name.

(** ** Data model *)

(** [SelectorMode] of [IManifestSelector.ts]. *)
Inductive SelectorMode : Type := Static | Dynamic.

Definition SelectorMode_eqb (a b : SelectorMode) : bool :=
  match a, b with
  | Static, Static | Dynamic, Dynamic => true
  | _, _ => false
  end.

(** The fields of [IManifestSelector] the component reads or writes.
    [mode] is [None] while it is unset. *)
Record IManifestSelector : Type := mkSelector {
  mode : option SelectorMode;
  manifestName : value;
  kind : value;
  account : value;
  location : value;
  cluster : value;
  criteria : value
}.

Definition set_mode (m : option SelectorMode) (s : IManifestSelector) :=
  mkSelector m (manifestName s) (kind s) (account s) (location s) (cluster s) (criteria s).
Definition set_manifestName (v : value) (s : IManifestSelector) :=
  mkSelector (mode s) v (kind s) (account s) (location s) (cluster s) (criteria s).
Definition set_kind (v : value) (s : IManifestSelector) :=
  mkSelector (mode s) (manifestName s) v (account s) (location s) (cluster s) (criteria s).
Definition set_account (v : value) (s : IManifestSelector) :=
  mkSelector (mode s) (manifestName s) (kind s) v (location s) (cluster s) (criteria s).
Definition set_location (v : value) (s : IManifestSelector) :=
  mkSelector (mode s) (manifestName s) (kind s) (account s) v (cluster s) (criteria s).
Definition set_cluster (v : value) (s : IManifestSelector) :=
  mkSelector (mode s) (manifestName s) (kind s) (account s) (location s) v (criteria s).
Definition set_criteria (v : value) (s : IManifestSelector) :=
  mkSelector (mode s) (manifestName s) (kind s) (account s) (location s) (cluster s) v.

(** The fields of [IAccountDetails] the component reads; a field that may
    be missing is an [option], [spinnakerKindMap] is the list of its
    entries (kind, spinnaker kind). *)
Record IAccountDetails : Type := mkAccount {
  acc_name : string;
  acc_namespaces : option (list string);
  acc_spinnakerKindMap : option (list (string * string))
}.

(** What [ManifestKindSearchService.search] resolves with, as far as the
    component looks at it. *)
Record IKindSearchResult : Type := mkResult {
  res_name : string
}.

(** The value pushed into [search$]. *)
Record SearchQuery : Type := mkQuery {
  q_kind : value;
  q_namespace : value;
  q_account : value
}.

Record IManifestSelectorProps : Type := mkProps {
  includeSpinnakerKinds : option (list string);
  hasOnChange : bool
}.

(** [IManifestSelectorState] without the selector, which is shared with
    the owner and kept in [Component]. *)
Record IManifestSelectorState : Type := mkState {
  accounts : list IAccountDetails;
  namespaces : list string;
  kinds : list string;
  resources : list string;
  loading : bool
}.

(** The argument of [setState]: the keys it carries.  [p_selector] tells
    whether the key [selector] is present; its value is always the shared
    object. *)
Record Patch : Type := mkPatch {
  p_selector : bool;
  p_accounts : option (list IAccountDetails);
  p_namespaces : option (list string);
  p_kinds : option (list string);
  p_resources : option (list string);
  p_loading : option bool
}.

Definition noPatch : Patch := mkPatch false None None None None None.
Definition withSelector (p : Patch) : Patch :=
  mkPatch true (p_accounts p) (p_namespaces p) (p_kinds p) (p_resources p) (p_loading p).
Definition withAccounts (l : list IAccountDetails) (p : Patch) : Patch :=
  mkPatch (p_selector p) (Some l) (p_namespaces p) (p_kinds p) (p_resources p) (p_loading p).
Definition withNamespaces (l : list string) (p : Patch) : Patch :=
  mkPatch (p_selector p) (p_accounts p) (Some l) (p_kinds p) (p_resources p) (p_loading p).
Definition withKinds (l : list string) (p : Patch) : Patch :=
  mkPatch (p_selector p) (p_accounts p) (p_namespaces p) (Some l) (p_resources p) (p_loading p).
Definition withResources (l : list string) (p : Patch) : Patch :=
  mkPatch (p_selector p) (p_accounts p) (p_namespaces p) (p_kinds p) (Some l) (p_loading p).
Definition withLoading (b : bool) (p : Patch) : Patch :=
  mkPatch (p_selector p) (p_accounts p) (p_namespaces p) (p_kinds p) (p_resources p) (Some b).

Definition applyPatch (p : Patch) (st : IManifestSelectorState) : IManifestSelectorState :=
  let pick {A} (o : option A) (d : A) := match o with Some x => x | None => d end in
  mkState (pick (p_accounts p) (accounts st))
          (pick (p_namespaces p) (namespaces st))
          (pick (p_kinds p) (kinds st))
          (pick (p_resources p) (resources st))
          (pick (p_loading p) (loading st)).

(** The component with what it shares with the outside: the selector
    object, the calls of [props.onChange] so far (oldest first, each with
    the contents of the selector when it was made) and the queries pushed
    into [search$] so far (oldest first). *)
Record Component : Type := mkComponent {
  props : IManifestSelectorProps;
  state : IManifestSelectorState;
  selector : IManifestSelector;
  notified : list IManifestSelector;
  submitted : list SearchQuery
}.

(** ** The monad of the methods *)

Inductive Outcome (A : Type) : Type :=
| Ok (a : A)
| TypeError.
Arguments Ok {A} a.
Arguments TypeError {A}.

Definition M (A : Type) : Type := Component -> Outcome A * Component.

Definition ret {A} (a : A) : M A := fun c => (Ok a, c).

Definition bind {A B} (m : M A) (k : A -> M B) : M B :=
  fun c =>
    match m c with
    | (Ok a, c') => k a c'
    | (TypeError, c') => (TypeError, c')
    end.

Definition raise {A} : M A := fun c => (TypeError, c).

Definition lift {A} (o : Outcome A) : M A := fun c => (o, c).

Definition get : M Component := fun c => (Ok c, c).

Declare Scope js_scope.
Delimit Scope js_scope with js.
Notation "x <- m ;; k" := (bind m (fun x => k))
  (at level 61, m at next level, right associativity) : js_scope.
Notation "m ;; k" := (bind m (fun _ => k))
  (at level 61, right associativity) : js_scope.
Open Scope js_scope.

Definition when (b : bool) (m : M unit) : M unit := if b then m else ret tt.

(** An assignment to a field of the shared selector. *)
Definition assign (f : IManifestSelector -> IManifestSelector) : M unit :=
  fun c =>
    (Ok tt, mkComponent (props c) (state c) (f (selector c)) (notified c) (submitted c)).

Definition onChange : M unit :=
  fun c =>
    (Ok tt, mkComponent (props c) (state c) (selector c)
                        (notified c ++ [selector c]) (submitted c)).

Definition setState (p : Patch) : M unit :=
  fun c =>
    (Ok tt, mkComponent (props c) (applyPatch p (state c)) (selector c)
                        (notified c) (submitted c)).

Definition push (q : SearchQuery) : M unit :=
  fun c =>
    (Ok tt, mkComponent (props c) (state c) (selector c) (notified c)
                        (submitted c ++ [q])).

(** The final component of a run and whether it returned. *)
Definition exec {A} (m : M A) (c : Component) : Component := snd (m c).
Definition returns {A} (m : M A) (c : Component) : bool :=
  match fst (m c) with Ok _ => true | TypeError => false end.

(** ** The methods of [ManifestSelector] that the handlers call *)

(** [setStateAndUpdateStage(state, cb)] without its callback: the owner is
    notified when the patch carries the selector and [props.onChange] is
    there, then the patch goes to [setState]. *)
Definition setStateAndUpdateStage (p : Patch) : M unit :=
  c <- get ;;
  when (p_selector p && hasOnChange (props c)) onChange ;;
  setState p.

(** [isExpression = (value = ''): boolean => value.includes('${')]: the
    default stands in for [undefined] only, and [null] has no method
    [includes]. *)
Definition isExpression (v : value) : Outcome bool :=
  match v with
  | Undefined => Ok (includes "${" "")
  | Null => TypeError
  | Str s => Ok (includes "${" s)
  end.

(** ** The two mode handlers *)

Record ISelectorHandler : Type := mkHandler {
  handles : SelectorMode -> bool;
  handleModeChange : M unit;
  handleKindChange : value -> M unit;
  getKind : M value
}.

Module StaticManifestSelectorHandler.

Definition handles (m : SelectorMode) : bool := SelectorMode_eqb m Static.

Definition handleKindChange (k : value) : M unit :=
  c <- get ;;
  let name := pn_name (parseSpinnakerName (manifestName (selector c))) in
  assign (set_manifestName (packKind k name)).

Definition handleModeChange : M unit :=
  c <- get ;;
  handleKindChange (kind (selector c)) ;;
  assign (set_kind Null) ;;
  assign (set_criteria Null) ;;
  assign (set_cluster Null) ;;
  setStateAndUpdateStage (withSelector noPatch).

Definition getKind : M value :=
  c <- get ;;
  ret (pn_kind (parseSpinnakerName (manifestName (selector c)))).

Definition handler : ISelectorHandler :=
  mkHandler handles handleModeChange handleKindChange getKind.

End StaticManifestSelectorHandler.

Module DynamicManifestSelectorHandler.

Definition handles (m : SelectorMode) : bool := SelectorMode_eqb m Dynamic.

Definition handleModeChange : M unit :=
  c <- get ;;
  let k := pn_kind (parseSpinnakerName (manifestName (selector c))) in
  assign (set_kind k) ;;
  assign (set_manifestName Null) ;;
  setStateAndUpdateStage (withSelector noPatch).

Definition handleKindChange (k : value) : M unit :=
  assign (set_kind k).

Definition getKind : M value :=
  c <- get ;;
  ret (kind (selector c)).

Definition handler : ISelectorHandler :=
  mkHandler handles handleModeChange handleKindChange getKind.

End DynamicManifestSelectorHandler.

(** ** The component *)

Module ManifestSelector.

(** [this.handlers], in the order of the constructor. *)
Definition handlers : list ISelectorHandler :=
  [StaticManifestSelectorHandler.handler; DynamicManifestSelectorHandler.handler].

(** The constructor: an unset mode becomes [Static] and the owner is
    told, then the state starts empty. *)
Definition construct (p : IManifestSelectorProps) (s : IManifestSelector) : Component :=
  let fresh := mkState [] [] [] [] false in
  match mode s with
  | None =>
      let s' := set_mode (Some Static) s in
      mkComponent p fresh s' (if hasOnChange p then [s'] else []) []
  | Some _ => mkComponent p fresh s [] []
  end.

(** [this.handlers.find(handler => handler.handles(mode || Static))];
    calling a method of the [undefined] that [find] gives when no handler
    matches is a [TypeError]. *)
Definition modeDelegate : M ISelectorHandler :=
  c <- get ;;
  let m := match mode (selector c) with Some m => m | None => Static end in
  match find (fun h => handles h m) handlers with
  | Some h => ret h
  | None => raise
  end.

(** [this.search$.next(query)] of the mounted component, up to the start
    of the lookup: the [do]
    stage of the pipeline runs [setStateAndUpdateStage({ loading: true })]
    and the query is on its way to [search]. *)
Definition search_next (q : SearchQuery) : M unit :=
  setStateAndUpdateStage (withLoading true noPatch) ;;
  push q.

Definition handleNameChange (selectedName : value) : M unit :=
  c <- get ;;
  let k := pn_kind (parseSpinnakerName (manifestName (selector c))) in
  assign (set_manifestName (Str (packName k selectedName))) ;;
  setStateAndUpdateStage (withSelector noPatch).

(** The subscriber of the pipeline, run with the names a lookup
    resolved with. *)
Definition searchSubscriber (names : list string) : M unit :=
  c <- get ;;
  when (is_nullish (manifestName (selector c))) (handleNameChange (Str "")) ;;
  setStateAndUpdateStage (withResources names (withLoading false noPatch)).

(** The entries of [spinnakerKindMap] that pass the allow-list. *)
Definition allowedKind (allow : option (list string)) (entry : string * string) : bool :=
  match allow with
  | Some ((_ :: _) as l) => existsb (String.eqb (snd entry)) l
  | _ => true
  end.

(** [sort] also reorders the namespaces inside the account details it is
    applied to; the component only tests membership in them, so the stored
    details are left as they were. *)
Definition handleAccountChange (selectedAccount : value) : M unit :=
  c <- get ;;
  match find (fun a => strict_eq (Str (acc_name a)) selectedAccount) (accounts (state c)) with
  | None => ret tt
  | Some details =>
      let namespaces :=
        sort (match acc_namespaces details with Some l => l | None => [] end) in
      let kinds :=
        sort (map fst
                (filter (allowedKind (includeSpinnakerKinds (props c)))
                   (match acc_spinnakerKindMap details with Some l => l | None => [] end))) in
      e <- lift (isExpression (location (selector c))) ;;
      when (negb e
            && forallb (fun ns => negb (strict_eq (Str ns) (location (selector c)))) namespaces)
           (assign (set_location Null)) ;;
      assign (set_account selectedAccount) ;;
      c' <- get ;;
      search_next
        (mkQuery (or_else (pn_kind (parseSpinnakerName (manifestName (selector c'))))
                          (kind (selector c')))
                 (location (selector c'))
                 (account (selector c'))) ;;
      setStateAndUpdateStage
        (withSelector (withKinds kinds (withNamespaces namespaces noPatch)))
  end.

(** [selectedNamespace] is the option object of the select box: [None]
    for [null], otherwise its [value]. *)
Definition handleNamespaceChange (selectedNamespace : option value) : M unit :=
  assign (set_location
            (match selectedNamespace with
             | Some v => if truthy v then v else Null
             | None => Null
             end)) ;;
  c <- get ;;
  search_next
    (mkQuery (pn_kind (parseSpinnakerName (manifestName (selector c))))
             (location (selector c))
             (account (selector c))) ;;
  setStateAndUpdateStage (withSelector noPatch).

Definition handleKindChange (k : value) : M unit :=
  h <- modeDelegate ;;
  handleKindChange h k ;;
  c <- get ;;
  search_next (mkQuery k (location (selector c)) (account (selector c))).

(** The callback given to [setState] runs once the patch is applied. *)
Definition handleModeSelect (m : SelectorMode) : M unit :=
  assign (set_mode (Some m)) ;;
  setStateAndUpdateStage (withSelector noPatch) ;;
  h <- modeDelegate ;;
  handleModeChange h.

Definition handleClusterChange (clusterName : value) : M unit :=
  assign (set_cluster clusterName) ;;
  setStateAndUpdateStage (withSelector noPatch).

Definition handleCriteriaChange (crit : value) : M unit :=
  assign (set_criteria crit) ;;
  setStateAndUpdateStage (withSelector noPatch).

Section Settings.

(** [SETTINGS.providers.kubernetes.defaults.account]. *)
Variable defaultAccount : value.

(** The continuation of [loadAccounts], run with the accounts the
    account service resolved with.  [accounts[0]] is read only behind
    [accounts.length > 0]; the branch for the empty list is never taken. *)
Definition loadAccounts (loaded : list IAccountDetails) : M unit :=
  c <- get ;;
  let k := pn_kind (parseSpinnakerName (manifestName (selector c))) in
  setStateAndUpdateStage (withAccounts loaded noPatch) ;;
  when (negb (truthy (account (selector c))) && Nat.ltb 0 (List.length loaded))
       (assign (set_account
                  (if existsb (fun e => strict_eq (Str (acc_name e)) defaultAccount) loaded
                   then defaultAccount
                   else match loaded with
                        | a :: _ => Str (acc_name a)
                        | [] => Undefined
                        end))) ;;
  c1 <- get ;;
  when (truthy (account (selector c1)))
       (handleAccountChange (account (selector c1))) ;;
  c2 <- get ;;
  when (truthy k)
       (search_next (mkQuery k (location (selector c2)) (account (selector c2)))).

End Settings.

(** What [search] hands back: a promise already resolved, a call of
    [ManifestKindSearchService.search] with what is done to its results,
    or an error raised before any promise exists. *)
Inductive Lookup : Type :=
| Resolved (names : list string)
| KindSearch (k ns acct : value) (andThen : list IKindSearchResult -> list string)
| Raised.

Definition search (k ns acct : value) : Lookup :=
  match isExpression acct with
  | TypeError => Raised
  | Ok true => Resolved []
  | Ok false =>
      KindSearch k ns acct (fun results => sort (map res_name results))
  end.

(** The calls of the kind-search service a lookup makes. *)
Definition serviceCalls (l : Lookup) : list (value * value * value) :=
  match l with
  | KindSearch k ns acct _ => [(k, ns, acct)]
  | _ => []
  end.

(** What a lookup resolves with, given what the service answers. *)
Definition resolution (answer : list IKindSearchResult) (l : Lookup) : option (list string) :=
  match l with
  | Resolved names => Some names
  | KindSearch _ _ _ andThen => Some (andThen answer)
  | Raised => None
  end.

End ManifestSelector.

(** ** Vocabulary of the statements *)

(** The order of [sort]: code unit by code unit, a proper prefix first. *)
Definition le_str (a b : string) : Prop := String.leb a b = true.

(** [resourceNames] of [render]: the names shown in the select box. *)
Definition resourceNames (rs : list string) : list value :=
  map (fun resource => pn_name (parseSpinnakerName (Str resource))) rs.

(** The last call of [onChange] was made with the selector as the method
    left it. *)
Definition notifiedLast (c c' : Component) : Prop :=
  exists earlier, notified c' = (notified c ++ earlier ++ [selector c'])%list.

(** A component whose selector is in the given mode, with a kind and a
    manifest name. *)
Definition selecting (m : SelectorMode) (k name : value) : Component :=
  ManifestSelector.construct
    (mkProps None true)
    (mkSelector (Some m) name k (Str "my-account") (Str "default") Undefined Undefined).

(** A component that knows one account, with the namespaces given, and
    whose selector points at a namespace. *)
Definition knowing (acct : string) (nss : list string) (loc : value) : Component :=
  mkComponent (mkProps None true)
              (mkState [mkAccount acct (Some nss) None] [] [] [] false)
              (mkSelector (Some Static) Undefined Undefined Undefined loc Undefined Undefined)
              [] [].

(** A component just mounted for a selector in which nothing is chosen. *)
Definition unassigned : Component :=
  ManifestSelector.construct
    (mkProps None true)
    (mkSelector (Some Static) Undefined Undefined Undefined Undefined Undefined Undefined).

(** ** What [render] computes *)

(** What [render] derives from the component before it builds the form:
    the values of the Kind and Name boxes, the options of the Name box, and
    which parts of the form are there.  The clusters, which come from
    [AppListExtractor], and the markup are left out. *)
Record View : Type := mkView {
  v_kind : value;
  v_name : value;
  v_resourceNames : list value;
  v_modeChoice : bool;
  v_nameField : bool;
  v_dynamicFields : bool
}.

(** [modes] is [props.modes]; [None] when the owner gives none. *)
Definition render (modes : option (list SelectorMode)) : M View :=
  c <- get ;;
  let m := match mode (selector c) with Some m => m | None => Static end in
  let ms := match modes with Some l => l | None => [m] end in
  h <- ManifestSelector.modeDelegate ;;
  k <- getKind h ;;
  let name := pn_name (parseSpinnakerName (manifestName (selector c))) in
  ret (mkView k name
              (resourceNames (resources (state c)))
              (Nat.ltb 1 (List.length ms))
              (existsb (SelectorMode_eqb Static) ms && SelectorMode_eqb m Static)
              (existsb (SelectorMode_eqb Dynamic) ms && SelectorMode_eqb m Dynamic)).



(** ** The names of the executions

    [normalizeExecutionNames] of
    [app/scripts/modules/core/src/pipeline/executions/Executions.tsx].  The
    executions and the pipeline configurations are typed [any] there; their
    identifiers and names are taken to be strings, [null] or [undefined]. *)

Module Executions.

(** The fields of an execution the method looks at. *)
Record Execution : Type := mkExecution {
  ex_id : value;
  ex_pipelineConfigId : value;
  ex_name : value
}.

Record PipelineConfig : Type := mkConfig {
  cfg_id : value;
  cfg_name : value
}.

(** The two fields of [IExecutionsState] that a failed load sets. *)
Record Flags : Type := mkFlags {
  fl_loading : bool;
  fl_initializationError : option bool
}.

(** [this.setState({ loading: false, initializationError: true })]. *)
Definition dataInitializationFailure (f : Flags) : Flags :=
  mkFlags false (Some true).

(** The body of the [forEach]: an execution with a configuration
    identifier takes the name of the first configuration that has this
    identifier, if there is one. *)
Definition rename (configurations : list PipelineConfig) (execution : Execution) : Execution :=
  if truthy (ex_pipelineConfigId execution)
  then match find (fun c => strict_eq (cfg_id c) (ex_pipelineConfigId execution))
                  configurations with
       | Some configMatch =>
           mkExecution (ex_id execution) (ex_pipelineConfigId execution)
                       (cfg_name configMatch)
       | None => execution
       end
  else execution.

(** [loadFailure] is [app.executions.loadFailure]; [executions] and
    [configurations] are the [data] of the two data sources, [None] while
    there is none.  The result is the flags and the executions as the method
    leaves them. *)
Definition normalizeExecutionNames
    (loadFailure : bool)
    (executions : option (list Execution))
    (configurations : option (list PipelineConfig))
    (f : Flags) : Flags * option (list Execution) :=
  let f' := if loadFailure then dataInitializationFailure f else f in
  let cs := match configurations with Some l => l | None => [] end in
  (f', option_map (map (rename cs)) executions).

End Executions.

(** ** Tactics *)

(** Runs a method on a component given up to its fields. *)
Ltac run :=
  unfold exec, returns;
  cbv [StaticManifestSelectorHandler.handleModeChange
       StaticManifestSelectorHandler.handleKindChange
       DynamicManifestSelectorHandler.handleModeChange
       DynamicManifestSelectorHandler.handleKindChange
       ManifestSelector.handleModeSelect ManifestSelector.modeDelegate
       ManifestSelector.handlers ManifestSelector.search_next
       ManifestSelector.handleNameChange ManifestSelector.handleKindChange
       ManifestSelector.handleNamespaceChange
       ManifestSelector.handleClusterChange ManifestSelector.handleCriteriaChange
       StaticManifestSelectorHandler.handler DynamicManifestSelectorHandler.handler
       StaticManifestSelectorHandler.handles DynamicManifestSelectorHandler.handles
       handles handleModeChange handleKindChange find SelectorMode_eqb
       setStateAndUpdateStage setState onChange assign push when
       bind ret get raise lift withSelector withLoading noPatch p_selector
       andb fst snd
       props state selector notified submitted hasOnChange
       set_mode set_manifestName set_kind set_account set_location
       set_cluster set_criteria
       mode manifestName kind account location cluster criteria].

(** Runs the methods [run] knows and [render], the getters and the subscriber. *)
Ltac run_all :=
  unfold exec, returns;
  cbv [render
       StaticManifestSelectorHandler.getKind DynamicManifestSelectorHandler.getKind
       getKind ManifestSelector.searchSubscriber ManifestSelector.construct
       withResources withAccounts withKinds withNamespaces
       StaticManifestSelectorHandler.handleModeChange
       StaticManifestSelectorHandler.handleKindChange
       DynamicManifestSelectorHandler.handleModeChange
       DynamicManifestSelectorHandler.handleKindChange
       ManifestSelector.handleModeSelect ManifestSelector.modeDelegate
       ManifestSelector.handlers ManifestSelector.search_next
       ManifestSelector.handleNameChange ManifestSelector.handleKindChange
       ManifestSelector.handleNamespaceChange
       ManifestSelector.handleClusterChange ManifestSelector.handleCriteriaChange
       StaticManifestSelectorHandler.handler DynamicManifestSelectorHandler.handler
       StaticManifestSelectorHandler.handles DynamicManifestSelectorHandler.handles
       handles handleModeChange handleKindChange find SelectorMode_eqb
       setStateAndUpdateStage setState onChange assign push when
       bind ret get raise lift withSelector withLoading noPatch
       p_selector p_accounts p_namespaces p_kinds p_resources p_loading applyPatch
       andb fst snd
       props state selector notified submitted hasOnChange
       accounts namespaces kinds resources loading
       set_mode set_manifestName set_kind set_account set_location
       set_cluster set_criteria
       mode manifestName kind account location cluster criteria].

(** Closes [notifiedLast] for a setter that tells the owner once more. *)
Ltac told earlier :=
  match goal with
  | owner : hasOnChange (props ?c) = true |- _ =>
      destruct c as [p st s nt sb]; destruct p as [inc has];
      cbn [props hasOnChange] in owner; subst has;
      exists earlier; run; reflexivity
  end.

(** * Properties *)

(** ** Splitting and parsing *)

Section Splitting.

Lemma split_not_nil (s : string) : split s <> [].
Proof.
  induction s as [|c s IH]; simpl; [discriminate|].
  destruct (Ascii.eqb c " "); [discriminate|].
  destruct (split s); discriminate.
Qed.

(** The first piece is what stands before the first space, the other
    pieces come from what follows it. *)
Lemma split_unfold (s : string) :
  split s = before_space s ::
            match after_space s with
            | Some rest => split rest
            | None => []
            end.
Proof.
  induction s as [|c s IH]; simpl; [reflexivity|].
  destruct (Ascii.eqb c " "); [reflexivity|].
  rewrite IH. reflexivity.
Qed.

Lemma before_space_no_space (s : string) :
  no_space s = true -> before_space s = s /\ after_space s = None.
Proof.
  induction s as [|c s IH]; simpl; [intros _; split; reflexivity|].
  destruct (Ascii.eqb c " "); simpl; [discriminate|].
  intros H. destruct (IH H) as [-> ->]. split; reflexivity.
Qed.

Lemma before_space_append (k r : string) :
  no_space k = true ->
  before_space (k ++ " " ++ r) = k /\ after_space (k ++ " " ++ r) = Some r.
Proof.
  change (" " ++ r) with (String " " r).
  induction k as [|c k IH]; simpl; [intros _; split; reflexivity|].
  destruct (Ascii.eqb c " "); simpl; [discriminate|].
  intros H. destruct (IH H) as [-> ->]. split; reflexivity.
Qed.

Lemma split_no_space (s : string) : no_space s = true -> split s = [s].
Proof.
  intros H. rewrite split_unfold.
  destruct (before_space_no_space s H) as [-> ->]. reflexivity.
Qed.

Lemma split_append (k r : string) :
  no_space k = true -> split (k ++ " " ++ r) = k :: split r.
Proof.
  intros H. rewrite split_unfold.
  destruct (before_space_append k r H) as [-> ->]. reflexivity.
Qed.

Lemma or_str_empty (s : string) : or_str (Str s) "" = s.
Proof.
  simpl. destruct (String.eqb_spec s ""); congruence.
Qed.

Lemma item_split_0 (s : string) : item (split s) 0 = Str (before_space s).
Proof. rewrite split_unfold. reflexivity. Qed.

Lemma item_split_1 (s : string) :
  item (split s) 1 =
  match after_space s with
  | Some rest => Str (before_space rest)
  | None => Undefined
  end.
Proof.
  rewrite split_unfold. destruct (after_space s) as [rest|]; [|reflexivity].
  unfold item. simpl. rewrite split_unfold. reflexivity.
Qed.

Lemma parse_kind (v : value) :
  pn_kind (parseSpinnakerName v) = Str (before_space (or_str v "")).
Proof. unfold parseSpinnakerName. simpl. apply item_split_0. Qed.

Lemma parse_name (v : value) :
  pn_name (parseSpinnakerName v) =
  match after_space (or_str v "") with
  | Some rest => Str (before_space rest)
  | None => Undefined
  end.
Proof. unfold parseSpinnakerName. simpl. apply item_split_1. Qed.

End Splitting.

(** C5, as stated, fails: the name is cut at its own first space, and a
    manifest name without a kind has the empty string as its kind, not
    [undefined]. *)
Lemma parse_first_space_counterexample :
  pn_name (parseSpinnakerName (Str "Deployment my app")) = Str "my"
  /\ pn_name (parseSpinnakerName (Str "Deployment my app")) <> Str "my app"
  /\ pn_kind (parseSpinnakerName (Str " foo")) = Str ""
  /\ pn_kind (parseSpinnakerName (Str " foo")) <> Undefined.
Proof. repeat split; try reflexivity; discriminate. Qed.

(** C5, amended: for every manifest name, [parseSpinnakerName] splits at
    every space and keeps the first two pieces.  The kind is the text before
    the first space; the name is the text between the first space and the
    second one, and [undefined] when there is no space.  The kind is never
    [undefined]: for a name that is unset, empty or starts with a space it
    is the empty string. *)
Theorem parseSpinnakerName_first_two_pieces (s : string) :
  pn_kind (parseSpinnakerName (Str s)) = Str (before_space s)
  /\ pn_name (parseSpinnakerName (Str s)) =
     match after_space s with
     | Some rest => Str (before_space rest)
     | None => Undefined
     end
  /\ (forall rest, pn_kind (parseSpinnakerName (Str (" " ++ rest))) = Str "")
  /\ (forall v, pn_kind (parseSpinnakerName v) <> Undefined)
  /\ pn_kind (parseSpinnakerName Undefined) = Str ""
  /\ pn_kind (parseSpinnakerName Null) = Str "".
Proof.
  repeat split.
  - rewrite parse_kind, or_str_empty. reflexivity.
  - rewrite parse_name, or_str_empty. reflexivity.
  - intros v. rewrite parse_kind. discriminate.
Qed.

(** C4, as stated, fails: [" foo"] is what packing without a kind gives,
    but it parses to the empty kind, not to [undefined]; and a name with a
    space does not come back. *)
Lemma pack_parse_counterexample :
  packName Undefined (Str "foo") = " foo"
  /\ parseSpinnakerName (Str (packName Undefined (Str "foo")))
     = {| pn_kind := Str ""; pn_name := Str "foo" |}
  /\ parseSpinnakerName (Str (packName Undefined (Str "foo")))
     <> {| pn_kind := Undefined; pn_name := Str "foo" |}
  /\ parseSpinnakerName (Str (packName (Str "Deployment") (Str "my app")))
     <> {| pn_kind := Str "Deployment"; pn_name := Str "my app" |}.
Proof. repeat split; try reflexivity; discriminate. Qed.

(** C4, amended: packing a kind and a name that are strings without a
    space and parsing the result gives the pair back, so ("Deployment",
    "foo") is packed as "Deployment foo" and parsed back.  Packing with an
    absent kind ([undefined], [null] or the empty string) puts a space
    before the name, and parsing gives the empty string as the kind. *)
Theorem pack_parse_roundtrip (k n : string) :
  no_space k = true ->
  no_space n = true ->
  parseSpinnakerName (Str (packName (Str k) (Str n)))
  = {| pn_kind := Str k; pn_name := Str n |}
  /\ (forall absent, truthy absent = false ->
      packName absent (Str n) = " " ++ n
      /\ parseSpinnakerName (Str (packName absent (Str n)))
         = {| pn_kind := Str ""; pn_name := Str n |}).
Proof.
  intros Hk Hn.
  assert (Hsp : forall k', no_space k' = true ->
            parseSpinnakerName (Str (k' ++ " " ++ n))
            = {| pn_kind := Str k'; pn_name := Str n |}).
  { intros k' Hk'. unfold parseSpinnakerName.
    rewrite or_str_empty, (split_append k' n Hk'), (split_no_space n Hn).
    reflexivity. }
  split.
  - unfold packName. simpl truthy. simpl to_string.
    destruct (String.eqb_spec k "") as [->|Hne]; simpl negb; cbv iota.
    + apply (Hsp "" eq_refl).
    + apply (Hsp k Hk).
  - intros absent Ha. unfold packName. rewrite Ha. simpl to_string.
    split; [reflexivity|]. apply (Hsp "" eq_refl).
Qed.

Lemma pack_parse_roundtrip_witness :
  packName (Str "Deployment") (Str "foo") = "Deployment foo"
  /\ parseSpinnakerName (Str (packName (Str "Deployment") (Str "foo")))
     = {| pn_kind := Str "Deployment"; pn_name := Str "foo" |}.
Proof.
  split; [reflexivity|].
  apply (pack_parse_roundtrip "Deployment" "foo"); reflexivity.
Defined.

(** ** Switching the mode *)

(** C1, as stated, fails: a name entered earlier is kept behind the kind,
    and with an empty kind the manifest name becomes [undefined]. *)
Lemma static_handleModeChange_counterexample :
  manifestName (selector (exec StaticManifestSelectorHandler.handleModeChange
                            (selecting Dynamic (Str "Service") (Str "Deployment foo"))))
  = Str "Service foo"
  /\ manifestName (selector (exec StaticManifestSelectorHandler.handleModeChange
                               (selecting Dynamic (Str "Service") (Str "Deployment foo"))))
     <> Str "Service"
  /\ manifestName (selector (exec StaticManifestSelectorHandler.handleModeChange
                               (selecting Dynamic (Str "") Null)))
     = Undefined
  /\ manifestName (selector (exec StaticManifestSelectorHandler.handleModeChange
                               (selecting Dynamic (Str "") Null)))
     <> Str "".
Proof. repeat split; try reflexivity; discriminate. Qed.

(** C1, amended: for every selector, the mode activation of the static
    handler returns, sets [kind], [criteria] and [cluster] to [null] and
    leaves the other fields but [manifestName] alone.  When the prior kind
    is a non-empty string, [manifestName] becomes the prior kind if the
    prior [manifestName] has no non-empty name (in particular if it was
    cleared), and the prior kind, a space and that name otherwise.  When
    the prior kind is [undefined], [null] or empty, [manifestName] becomes
    the name parsed from the prior [manifestName].  Selecting the static
    mode through [handleModeSelect] does the same. *)
Theorem static_handleModeChange_spec (c : Component) :
  let prior := selector c in
  let name := pn_name (parseSpinnakerName (manifestName prior)) in
  forall c',
    c' = exec StaticManifestSelectorHandler.handleModeChange c
    \/ c' = exec (ManifestSelector.handleModeSelect Static) c ->
    kind (selector c') = Null
    /\ criteria (selector c') = Null
    /\ cluster (selector c') = Null
    /\ account (selector c') = account prior
    /\ location (selector c') = location prior
    /\ (truthy (kind prior) = true -> truthy name = false ->
        manifestName (selector c') = kind prior)
    /\ (truthy (kind prior) = true -> is_nullish (manifestName prior) = true ->
        manifestName (selector c') = kind prior)
    /\ (truthy (kind prior) = true -> truthy name = true ->
        manifestName (selector c')
        = Str (to_string (kind prior) ++ " " ++ to_string name))
    /\ (truthy (kind prior) = false -> manifestName (selector c') = name).
Proof.
  intros prior name c' Hc'.
  assert (Hm : manifestName (selector c') = packKind (kind prior) name
               /\ kind (selector c') = Null /\ criteria (selector c') = Null
               /\ cluster (selector c') = Null
               /\ account (selector c') = account prior
               /\ location (selector c') = location prior).
  { destruct Hc' as [-> | ->]; subst prior name;
      destruct c as [p st s nt sb]; destruct s; destruct p as [inc has];
      destruct has; run; repeat split; reflexivity. }
  destruct Hm as (Hm & Hk & Hcr & Hcl & Ha & Hl).
  repeat split; try assumption; rewrite Hm; unfold packKind.
  - intros -> ->. reflexivity.
  - intros -> Hn. replace (truthy name) with false; [reflexivity|].
    subst name. destruct (manifestName prior); try discriminate; reflexivity.
  - intros -> ->. reflexivity.
  - intros ->. reflexivity.
Qed.

Lemma static_handleModeChange_witness :
  manifestName (selector (exec StaticManifestSelectorHandler.handleModeChange
                            (selecting Dynamic (Str "Deployment") Null)))
  = Str "Deployment".
Proof.
  apply (static_handleModeChange_spec (selecting Dynamic (Str "Deployment") Null));
    [left; reflexivity | reflexivity | reflexivity].
Defined.

(** C2: for every selector, the mode activation of the dynamic handler
    returns, sets [manifestName] to [null] and sets [kind] to the kind
    that [parseSpinnakerName] finds in the prior [manifestName], which is
    its first space-separated piece.  Selecting the dynamic mode through
    [handleModeSelect] does the same. *)
Theorem dynamic_handleModeChange_spec (c : Component) :
  returns DynamicManifestSelectorHandler.handleModeChange c = true
  /\ returns (ManifestSelector.handleModeSelect Dynamic) c = true
  /\ forall c',
       c' = exec DynamicManifestSelectorHandler.handleModeChange c
       \/ c' = exec (ManifestSelector.handleModeSelect Dynamic) c ->
       manifestName (selector c') = Null
       /\ kind (selector c') = pn_kind (parseSpinnakerName (manifestName (selector c)))
       /\ kind (selector c') = item (split (or_str (manifestName (selector c)) "")) 0
       /\ kind (selector c') = Str (before_space (or_str (manifestName (selector c)) "")).
Proof.
  destruct c as [p st s nt sb]; destruct s as [m mn k a l cl cr];
    destruct p as [inc has].
  split; [|split].
  - destruct has; reflexivity.
  - destruct has; reflexivity.
  - intros c' Hc'.
    assert (H : manifestName (selector c') = Null
                /\ kind (selector c') = pn_kind (parseSpinnakerName mn)).
    { destruct Hc' as [-> | ->]; destruct has; run; split; reflexivity. }
    destruct H as [H1 H2]. cbn [selector manifestName].
    repeat split; try assumption.
    rewrite H2. apply parse_kind.
Qed.

Lemma dynamic_handleModeChange_witness :
  kind (selector (exec DynamicManifestSelectorHandler.handleModeChange
                    (selecting Static Undefined (Str "Deployment foo"))))
  = Str "Deployment".
Proof.
  apply (proj2 (proj2 (dynamic_handleModeChange_spec
                         (selecting Static Undefined (Str "Deployment foo"))))
               _ (or_introl eq_refl)).
Defined.

(** ** Substrings and sorting *)

Section Includes.

Lemma prefix_append (n rest : string) : String.prefix n (n ++ rest) = true.
Proof.
  induction n as [|a n IH]; simpl; [destruct rest; reflexivity|].
  destruct (ascii_dec a a) as [_|Hne]; [exact IH|congruence].
Qed.

Lemma prefix_inv (n h : string) :
  String.prefix n h = true -> exists rest, h = n ++ rest.
Proof.
  revert h. induction n as [|a n IH]; intros h H.
  - exists h. reflexivity.
  - destruct h as [|b h]; simpl in H; [discriminate|].
    destruct (ascii_dec a b) as [->|_]; [|discriminate].
    destruct (IH h H) as [rest ->]. exists rest. reflexivity.
Qed.

Lemma includes_prefix (n h : string) :
  String.prefix n h = true -> includes n h = true.
Proof.
  intros H. destruct h; cbn [includes]; rewrite H; reflexivity.
Qed.

(** [includes] finds a needle exactly when it occurs. *)
Lemma includes_spec (n h : string) :
  includes n h = true <-> exists pre post, h = pre ++ n ++ post.
Proof.
  split.
  - induction h as [|b h IH]; intros H; cbn [includes] in H;
      apply orb_true_iff in H; destruct H as [H|H].
    + destruct (prefix_inv _ _ H) as [rest E]. exists "", rest. exact E.
    + discriminate.
    + destruct (prefix_inv _ _ H) as [rest E]. exists "", rest. exact E.
    + destruct (IH H) as (pre & post & ->). exists (String b pre), post.
      reflexivity.
  - intros (pre & post & ->). induction pre as [|b pre IH].
    + change ("" ++ n ++ post) with (n ++ post).
      apply includes_prefix, prefix_append.
    + change (String b pre ++ n ++ post) with (String b (pre ++ n ++ post)).
      cbn [includes]. rewrite IH. apply orb_true_r.
Qed.

End Includes.

Section Sorting.

Lemma insert_perm (x : string) (l : list string) :
  Permutation (x :: l) (insert x l).
Proof.
  induction l as [|y l IH]; simpl; [apply Permutation_refl|].
  destruct (String.leb x y); [apply Permutation_refl|].
  eapply perm_trans; [apply perm_swap|]. apply perm_skip. exact IH.
Qed.

Lemma insert_hd (x y : string) (l : list string) :
  le_str y x -> HdRel le_str y l -> HdRel le_str y (insert x l).
Proof.
  intros Hyx Hl. destruct l as [|z l]; simpl.
  - constructor. exact Hyx.
  - destruct (String.leb x z); constructor; [exact Hyx|].
    inversion Hl; assumption.
Qed.

Lemma insert_sorted (x : string) (l : list string) :
  Sorted le_str l -> Sorted le_str (insert x l).
Proof.
  induction 1 as [|y l Hs IH Hhd]; simpl.
  - repeat constructor.
  - destruct (String.leb x y) eqn:E.
    + constructor; [constructor; assumption|]. constructor. exact E.
    + constructor; [exact IH|]. apply insert_hd; [|exact Hhd].
      destruct (String.leb_total x y) as [H|H]; [congruence|exact H].
Qed.

Lemma sort_perm (l : list string) : Permutation l (sort l).
Proof.
  induction l as [|x l IH]; simpl; [constructor|].
  eapply perm_trans; [apply perm_skip, IH|]. apply insert_perm.
Qed.

Lemma sort_sorted (l : list string) : Sorted le_str (sort l).
Proof.
  induction l as [|x l IH]; simpl; [constructor|].
  apply insert_sorted, IH.
Qed.

Lemma sort_In (x : string) (l : list string) : In x (sort l) <-> In x l.
Proof.
  split; apply Permutation_in;
    [apply Permutation_sym|]; apply sort_perm.
Qed.

End Sorting.

(** ** The lookup *)

(** C6: for every search whose account contains ["${"], [search] gives a
    promise already resolved with the empty list and calls the kind-search
    service not at all. *)
Theorem search_expression_guard (k ns : value) (pre post : string) :
  let acct := Str (pre ++ "${" ++ post) in
  ManifestSelector.search k ns acct = ManifestSelector.Resolved []
  /\ ManifestSelector.serviceCalls (ManifestSelector.search k ns acct) = []
  /\ forall answer,
       ManifestSelector.resolution answer (ManifestSelector.search k ns acct) = Some [].
Proof.
  intros acct.
  assert (E : ManifestSelector.search k ns acct = ManifestSelector.Resolved []).
  { unfold ManifestSelector.search, acct, isExpression.
    replace (includes "${" (pre ++ "${" ++ post)) with true; [reflexivity|].
    symmetry. apply includes_spec. exists pre, post. reflexivity. }
  rewrite E. repeat split.
Qed.

(** C8, as stated, fails: [search] resolves with the [name] of each
    result as the service gave it, kind included; the short name is cut out
    of it by [render] only. *)
Lemma search_short_names_counterexample :
  let found :=
    ManifestSelector.resolution [mkResult "deployment foo"]
      (ManifestSelector.search (Str "deployment") (Str "default") (Str "my-account")) in
  found = Some ["deployment foo"]
  /\ found <> Some ["foo"]
  /\ resourceNames ["deployment foo"] = [Str "foo"].
Proof. repeat split; try reflexivity; discriminate. Qed.

(** C8, amended: for every search whose account is not an expression,
    [search] calls the kind-search service once, with (kind, namespace,
    account), and resolves with the [name] fields of the results it
    returned, that is the full identifiers, in ascending order of their
    code units. *)
Theorem search_calls_service_and_sorts (k ns acct : value) :
  isExpression acct = Ok false ->
  ManifestSelector.serviceCalls (ManifestSelector.search k ns acct) = [(k, ns, acct)]
  /\ forall answer, exists names,
       ManifestSelector.resolution answer (ManifestSelector.search k ns acct) = Some names
       /\ Permutation (map res_name answer) names
       /\ Sorted le_str names.
Proof.
  intros H. unfold ManifestSelector.search. rewrite H. split; [reflexivity|].
  intros answer. exists (sort (map res_name answer)).
  split; [reflexivity|]. split; [apply sort_perm|apply sort_sorted].
Qed.

Lemma search_calls_service_and_sorts_witness :
  ManifestSelector.serviceCalls
    (ManifestSelector.search (Str "deployment") (Str "default") (Str "my-account"))
  = [(Str "deployment", Str "default", Str "my-account")]
  /\ ManifestSelector.resolution
       [mkResult "deployment web"; mkResult "deployment api"]
       (ManifestSelector.search (Str "deployment") (Str "default") (Str "my-account"))
     = Some ["deployment api"; "deployment web"].
Proof.
  split.
  - apply (search_calls_service_and_sorts
             (Str "deployment") (Str "default") (Str "my-account")).
    reflexivity.
  - reflexivity.
Defined.

(** ** Changing the account *)

Section AccountChange.

Variable c : Component.
Variable selectedAccount : value.

Let lookupAccount :=
  find (fun a => strict_eq (Str (acc_name a)) selectedAccount) (accounts (state c)).

(** An account the component does not know changes nothing. *)
Lemma handleAccountChange_unknown :
  lookupAccount = None ->
  ManifestSelector.handleAccountChange selectedAccount c = (Ok tt, c).
Proof.
  unfold lookupAccount, ManifestSelector.handleAccountChange, bind, get.
  intros ->. reflexivity.
Qed.

(** The namespace cannot be tested when it is [null]: the method raises
    before it has changed anything. *)
Lemma handleAccountChange_raises (details : IAccountDetails) :
  lookupAccount = Some details ->
  isExpression (location (selector c)) = TypeError ->
  ManifestSelector.handleAccountChange selectedAccount c = (TypeError, c).
Proof.
  unfold lookupAccount, ManifestSelector.handleAccountChange, bind, get, lift.
  intros -> ->. reflexivity.
Qed.

(** Otherwise the method returns; the namespace is cleared or kept, the
    account is stored and the owner is told. *)
Lemma handleAccountChange_found (details : IAccountDetails) (e : bool) :
  lookupAccount = Some details ->
  isExpression (location (selector c)) = Ok e ->
  let nss := sort (match acc_namespaces details with Some l => l | None => [] end) in
  let clear :=
    negb e && forallb (fun ns => negb (strict_eq (Str ns) (location (selector c)))) nss in
  let s' :=
    set_account selectedAccount
      (if clear then set_location Null (selector c) else selector c) in
  let c' := exec (ManifestSelector.handleAccountChange selectedAccount) c in
  returns (ManifestSelector.handleAccountChange selectedAccount) c = true
  /\ selector c' = s'
  /\ notified c' = (notified c ++ (if hasOnChange (props c) then [s'] else []))%list
  /\ namespaces (state c') = nss.
Proof.
  intros Hf He nss clear s' c'. unfold lookupAccount in Hf.
  subst c'. unfold exec, returns, ManifestSelector.handleAccountChange, bind, get, lift.
  rewrite Hf, He. fold nss. fold clear.
  destruct c as [p st s nt sb]; destruct p as [inc has].
  subst s'. cbn [selector props hasOnChange notified] in *.
  destruct clear; destruct has; run; cbn [applyPatch withKinds withNamespaces
    p_namespaces p_accounts p_kinds p_resources p_loading namespaces];
    rewrite ?app_nil_r; repeat split; reflexivity.
Qed.

End AccountChange.

Lemma strict_eq_true (a b : value) : strict_eq a b = true <-> a = b.
Proof.
  unfold strict_eq. destruct (value_eq_dec a b); split; congruence.
Qed.

(** C7: when the account chosen is one the component knows and a
    namespace is selected, [handleAccountChange] returns; it sets the
    namespace of the selector to [null] if the namespace is not an
    expression and is not among the namespaces of the account, and leaves it
    as it is if it is an expression or is among them. *)
Theorem handleAccountChange_namespace
    (c : Component) (selectedAccount : value) (details : IAccountDetails) (loc : string) :
  find (fun a => strict_eq (Str (acc_name a)) selectedAccount) (accounts (state c))
  = Some details ->
  location (selector c) = Str loc ->
  let listed := match acc_namespaces details with Some l => l | None => [] end in
  let c' := exec (ManifestSelector.handleAccountChange selectedAccount) c in
  returns (ManifestSelector.handleAccountChange selectedAccount) c = true
  /\ (includes "${" loc = false -> ~ In loc listed -> location (selector c') = Null)
  /\ (includes "${" loc = true \/ In loc listed -> location (selector c') = Str loc).
Proof.
  intros Hf Hloc listed c'.
  assert (He : isExpression (location (selector c)) = Ok (includes "${" loc))
    by (rewrite Hloc; reflexivity).
  destruct (handleAccountChange_found c selectedAccount details _ Hf He)
    as (Hret & Hsel & _ & _).
  fold listed in Hsel. fold c' in Hsel.
  split; [exact Hret|]. rewrite Hsel. split.
  - intros Hexp Hnot. rewrite Hexp.
    replace (forallb _ (sort listed)) with true; [reflexivity|].
    symmetry. apply forallb_forall. intros ns Hin. apply (proj1 (sort_In _ _)) in Hin.
    rewrite Hloc. destruct (strict_eq (Str ns) (Str loc)) eqn:E; [|reflexivity].
    apply strict_eq_true in E. injection E as E'.
    exfalso. apply Hnot. rewrite <- E'. exact Hin.
  - intros Hkeep.
    replace (negb (includes "${" loc) && forallb _ (sort listed)) with false;
      [exact Hloc|].
    symmetry. destruct Hkeep as [-> | Hin]; [reflexivity|].
    apply andb_false_intro2.
    destruct (forallb _ (sort listed)) eqn:E; [|reflexivity].
    rewrite forallb_forall in E. specialize (E loc (proj2 (sort_In _ _) Hin)).
    rewrite Hloc in E.
    rewrite (proj2 (strict_eq_true (Str loc) (Str loc)) eq_refl) in E.
    discriminate.
Qed.

Lemma handleAccountChange_namespace_witness :
  location (selector (exec (ManifestSelector.handleAccountChange (Str "prod"))
                        (knowing "prod" ["ns-a"; "ns-b"] (Str "ns-c"))))
  = Null.
Proof.
  apply (handleAccountChange_namespace
           (knowing "prod" ["ns-a"; "ns-b"] (Str "ns-c")) (Str "prod")
           (mkAccount "prod" (Some ["ns-a"; "ns-b"]) None) "ns-c").
  - reflexivity.
  - reflexivity.
  - reflexivity.
  - simpl. intros [H|[H|[]]]; discriminate.
Defined.

(** ** Telling the owner *)

Lemma handleNamespaceChange_notifies (c : Component) (ns : option value) :
  hasOnChange (props c) = true ->
  notifiedLast c (exec (ManifestSelector.handleNamespaceChange ns) c).
Proof. intros owner. told (@nil IManifestSelector). Qed.

Lemma handleNameChange_notifies (c : Component) (name : value) :
  hasOnChange (props c) = true ->
  notifiedLast c (exec (ManifestSelector.handleNameChange name) c).
Proof. intros owner. told (@nil IManifestSelector). Qed.

Lemma handleClusterChange_notifies (c : Component) (name : value) :
  hasOnChange (props c) = true ->
  notifiedLast c (exec (ManifestSelector.handleClusterChange name) c).
Proof. intros owner. told (@nil IManifestSelector). Qed.

Lemma handleCriteriaChange_notifies (c : Component) (crit : value) :
  hasOnChange (props c) = true ->
  notifiedLast c (exec (ManifestSelector.handleCriteriaChange crit) c).
Proof. intros owner. told (@nil IManifestSelector). Qed.

Lemma handleModeSelect_notifies (c : Component) (m : SelectorMode) :
  hasOnChange (props c) = true ->
  notifiedLast c (exec (ManifestSelector.handleModeSelect m) c).
Proof.
  intros owner. destruct c as [p st s nt sb]; destruct p as [inc has].
  cbn [props hasOnChange] in owner; subst has.
  exists [set_mode (Some m) s].
  destruct m; run; rewrite <- app_assoc; reflexivity.
Qed.

Lemma handleAccountChange_notifies
    (c : Component) (selectedAccount : value) (details : IAccountDetails) (e : bool) :
  hasOnChange (props c) = true ->
  find (fun a => strict_eq (Str (acc_name a)) selectedAccount) (accounts (state c))
  = Some details ->
  isExpression (location (selector c)) = Ok e ->
  notifiedLast c (exec (ManifestSelector.handleAccountChange selectedAccount) c).
Proof.
  intros owner Hf He.
  destruct (handleAccountChange_found c selectedAccount details e Hf He)
    as (_ & Hsel & Hnt & _).
  exists []. rewrite Hnt, owner, Hsel. reflexivity.
Qed.

(** A change of the kind never calls [onChange], whatever the mode. *)
Lemma handleKindChange_never_notifies (c : Component) (k : value) :
  returns (ManifestSelector.handleKindChange k) c = true
  /\ notified (exec (ManifestSelector.handleKindChange k) c) = notified c.
Proof.
  destruct c as [p st s nt sb]; destruct s as [m mn kd a l cl cr].
  destruct m as [[|]|]; run; split; reflexivity.
Qed.

(** C9 at a kind change: with the static selector "Deployment foo" and an
    owner that listens, [handleKindChange("Service")] returns and has
    changed the selector to "Service foo", yet [onChange] has not been
    called, and the end of the lookup that the change started does not call
    it either.  The other setters do call it, as the lemmas above show. *)
Theorem handleKindChange_owner_not_told :
  let c := selecting Static Undefined (Str "Deployment foo") in
  let c' := exec (ManifestSelector.handleKindChange (Str "Service")) c in
  hasOnChange (props c) = true
  /\ returns (ManifestSelector.handleKindChange (Str "Service")) c = true
  /\ manifestName (selector c) = Str "Deployment foo"
  /\ manifestName (selector c') = Str "Service foo"
  /\ notified c' = notified c
  /\ notified c' = []
  /\ submitted c' = [mkQuery (Str "Service") (Str "default") (Str "my-account")]
  /\ notified (exec (ManifestSelector.searchSubscriber ["Service foo"]) c') = [].
Proof. repeat split. Qed.

(** ** Loading the accounts *)

(** [handleAccountChange] leaves an account that is already the selected
    one in place, whether it returns or raises. *)
Lemma handleAccountChange_same_account (c : Component) (v : value) :
  account (selector c) = v ->
  account (selector (exec (ManifestSelector.handleAccountChange v) c)) = v.
Proof.
  intros Hv.
  destruct (find (fun a => strict_eq (Str (acc_name a)) v) (accounts (state c)))
    as [details|] eqn:Hf.
  - destruct (isExpression (location (selector c))) as [e|] eqn:He.
    + destruct (handleAccountChange_found c v details e Hf He) as (_ & -> & _).
      reflexivity.
    + unfold exec. rewrite (handleAccountChange_raises c v details Hf He).
      exact Hv.
  - unfold exec. rewrite (handleAccountChange_unknown c v Hf). exact Hv.
Qed.

Lemma search_next_selector (q : SearchQuery) (c : Component) :
  fst (ManifestSelector.search_next q c) = Ok tt
  /\ selector (snd (ManifestSelector.search_next q c)) = selector c.
Proof. destruct c as [p st s nt sb]. split; reflexivity. Qed.

Lemma existsb_default_account (d : value) (l : list IAccountDetails) :
  existsb (fun e => strict_eq (Str (acc_name e)) d) l = true
  <-> exists n, d = Str n /\ In n (map acc_name l).
Proof.
  rewrite existsb_exists. split.
  - intros (a & Hin & Heq). apply strict_eq_true in Heq. exists (acc_name a).
    split; [congruence|]. apply in_map. exact Hin.
  - intros (n & -> & Hin). apply in_map_iff in Hin. destruct Hin as (a & <- & Hin).
    exists a. split; [exact Hin|]. apply strict_eq_true. reflexivity.
Qed.

(** C10: when the selector has no account ([undefined], [null] or the
    empty string) and the accounts loaded are not none, [loadAccounts] sets
    the account of the selector to the configured default account if an
    account of that name is among those loaded, and to the name of the
    first account loaded otherwise. *)
Theorem loadAccounts_picks_account
    (defaultAccount : value) (c : Component)
    (first : IAccountDetails) (others : list IAccountDetails) :
  truthy (account (selector c)) = false ->
  let loaded := first :: others in
  let c' := exec (ManifestSelector.loadAccounts defaultAccount loaded) c in
  ((exists n, defaultAccount = Str n /\ In n (map acc_name loaded)) ->
   account (selector c') = defaultAccount)
  /\ ((forall n, defaultAccount = Str n -> ~ In n (map acc_name loaded)) ->
      account (selector c') = Str (acc_name first)).
Proof.
  intros Hno loaded c'.
  set (chosen := if existsb (fun e => strict_eq (Str (acc_name e)) defaultAccount) loaded
                 then defaultAccount else Str (acc_name first)).
  assert (H : account (selector c') = chosen).
  { subst c'. unfold ManifestSelector.loadAccounts, exec.
    destruct c as [p st s nt sb].
    cbn [selector] in Hno.
    cbv [bind get setStateAndUpdateStage withAccounts noPatch p_selector andb when
         ret setState assign selector props state notified submitted].
    rewrite Hno. cbn [negb andb loaded List.length Nat.ltb Nat.leb].
    fold loaded. cbn [set_account account]. fold chosen.
    set (c1 := mkComponent _ _ _ _ _).
    assert (Hc1 : account (selector c1) = chosen) by reflexivity.
    destruct (truthy chosen) eqn:Ht.
    - pose proof (handleAccountChange_same_account c1 chosen Hc1) as Hsame.
      unfold exec in Hsame.
      destruct (ManifestSelector.handleAccountChange chosen c1) as [[[]|] c2];
        cbn [snd] in Hsame; cbn [snd]; [|exact Hsame].
      destruct (truthy (pn_kind (parseSpinnakerName (manifestName s)))).
      + destruct (search_next_selector
                    (mkQuery (pn_kind (parseSpinnakerName (manifestName s)))
                             (location (selector c2)) (account (selector c2))) c2)
          as [Hok Hs].
        destruct (ManifestSelector.search_next _ c2) as [o c3].
        cbn [snd] in *. change (account (selector c3) = chosen).
        rewrite Hs. exact Hsame.
      + exact Hsame.
    - destruct (truthy (pn_kind (parseSpinnakerName (manifestName s)))).
      + destruct (search_next_selector
                    (mkQuery (pn_kind (parseSpinnakerName (manifestName s)))
                             (location (selector c1)) (account (selector c1))) c1)
          as [Hok Hs].
        destruct (ManifestSelector.search_next _ c1) as [o c3].
        cbn [snd] in *. change (account (selector c3) = chosen).
        rewrite Hs. exact Hc1.
      + exact Hc1. }
  rewrite H. subst chosen. split.
  - intros Hin. apply existsb_default_account in Hin. rewrite Hin. reflexivity.
  - intros Hout.
    destruct (existsb _ loaded) eqn:E; [|reflexivity].
    apply existsb_default_account in E. destruct E as (n & Hd & Hin).
    exfalso. exact (Hout n Hd Hin).
Qed.

Lemma loadAccounts_picks_account_witness :
  account (selector (exec (ManifestSelector.loadAccounts
                             (Str "prod")
                             [mkAccount "dev" None None; mkAccount "prod" None None])
                          unassigned))
  = Str "prod".
Proof.
  apply (loadAccounts_picks_account
           (Str "prod") _ (mkAccount "dev" None None) [mkAccount "prod" None None]);
    [reflexivity|].
  exists "prod". split; [reflexivity|]. simpl. auto.
Defined.

(** * Further properties of the component *)

(** ** Pieces of a name *)

Lemma before_space_has_no_space (s : string) : no_space (before_space s) = true.
Proof.
  induction s as [|ch s IH]; simpl; [reflexivity|].
  destruct (Ascii.eqb ch " ") eqn:E; simpl; [reflexivity|].
  rewrite E. exact IH.
Qed.

(** A name that [parseSpinnakerName] hands out has no space in it. *)
Lemma parsed_name_no_space (v : value) (n : string) :
  pn_name (parseSpinnakerName v) = Str n -> no_space n = true.
Proof.
  rewrite parse_name. destruct (after_space (or_str v "")); [|discriminate].
  intros H. injection H as <-. apply before_space_has_no_space.
Qed.

Lemma parsed_kind_no_space (v : value) (k : string) :
  pn_kind (parseSpinnakerName v) = Str k -> no_space k = true.
Proof.
  rewrite parse_kind. intros H. injection H as <-. apply before_space_has_no_space.
Qed.

Lemma parse_joined (k n : string) :
  no_space k = true -> no_space n = true ->
  parseSpinnakerName (Str (k ++ " " ++ n)) = mkParsedName (Str k) (Str n).
Proof.
  intros Hk Hn. unfold parseSpinnakerName.
  rewrite or_str_empty, (split_append k n Hk), (split_no_space n Hn). reflexivity.
Qed.

Lemma parse_single (k : string) :
  no_space k = true -> parseSpinnakerName (Str k) = mkParsedName (Str k) Undefined.
Proof.
  intros Hk. unfold parseSpinnakerName.
  rewrite or_str_empty, (split_no_space k Hk). reflexivity.
Qed.

Lemma truthy_Str (v : value) :
  truthy v = true -> exists s, v = Str s /\ s <> "".
Proof.
  destruct v as [| |s]; try discriminate. simpl.
  destruct (String.eqb_spec s ""); [discriminate|]. intros _. exists s. auto.
Qed.

Lemma truthy_nonempty (s : string) : s <> "" -> truthy (Str s) = true.
Proof.
  intros H. simpl. destruct (String.eqb_spec s ""); [contradiction|reflexivity].
Qed.

(** ** Finding the handler of the mode *)

(** X1: [modeDelegate] never fails and changes nothing.  The handler it
    finds handles the mode of the selector, [Static] standing in for a mode
    that is unset, and no other handler of the component does. *)
Theorem modeDelegate_one_handler (c : Component) :
  let m := match mode (selector c) with Some m => m | None => Static end in
  exists h,
    ManifestSelector.modeDelegate c = (Ok h, c)
    /\ In h ManifestSelector.handlers
    /\ handles h m = true
    /\ (forall h', In h' ManifestSelector.handlers -> handles h' m = true -> h' = h)
    /\ (mode (selector c) = None -> h = StaticManifestSelectorHandler.handler).
Proof.
  destruct c as [p st s nt sb]; destruct s as [m mn kd a l cl cr].
  assert (Hall : forall h', In h' ManifestSelector.handlers ->
                   h' = StaticManifestSelectorHandler.handler
                   \/ h' = DynamicManifestSelectorHandler.handler).
  { intros h' [H|[H|[]]]; auto. }
  assert (Hs : forall h', In h' ManifestSelector.handlers ->
                 handles h' Static = true ->
                 h' = StaticManifestSelectorHandler.handler).
  { intros h' Hin Hh. destruct (Hall h' Hin) as [->| ->]; [reflexivity|discriminate]. }
  assert (Hd : forall h', In h' ManifestSelector.handlers ->
                 handles h' Dynamic = true ->
                 h' = DynamicManifestSelectorHandler.handler).
  { intros h' Hin Hh. destruct (Hall h' Hin) as [->| ->]; [discriminate|reflexivity]. }
  destruct m as [[|]|]; cbn [selector mode].
  - exists StaticManifestSelectorHandler.handler.
    split; [reflexivity|]. split; [left; reflexivity|]. split; [reflexivity|].
    split; [exact Hs|discriminate].
  - exists DynamicManifestSelectorHandler.handler.
    split; [reflexivity|]. split; [right; left; reflexivity|]. split; [reflexivity|].
    split; [exact Hd|discriminate].
  - exists StaticManifestSelectorHandler.handler.
    split; [reflexivity|]. split; [left; reflexivity|]. split; [reflexivity|].
    split; [exact Hs|reflexivity].
Qed.

(** ** Changing the kind *)

Lemma parsed_name_cases (v : value) :
  pn_name (parseSpinnakerName v) = Undefined
  \/ exists n, pn_name (parseSpinnakerName v) = Str n /\ no_space n = true.
Proof.
  destruct (pn_name (parseSpinnakerName v)) as [| |n] eqn:E.
  - left. reflexivity.
  - rewrite parse_name in E. destruct (after_space (or_str v "")); discriminate.
  - right. exists n. split; [reflexivity|]. exact (parsed_name_no_space v n E).
Qed.

(** What the static handler stores for a proper kind parses back to that
    kind, with the name that was there when it was not empty. *)
Lemma packKind_parse (k : string) (v : value) :
  k <> "" -> no_space k = true ->
  let old := pn_name (parseSpinnakerName v) in
  parseSpinnakerName (packKind (Str k) old)
  = mkParsedName (Str k) (if truthy old then old else Undefined).
Proof.
  intros Hne Hk old. unfold packKind. rewrite (truthy_nonempty k Hne).
  destruct (parsed_name_cases v) as [E | (n & E & Hn)]; fold old in E; rewrite E.
  - simpl truthy. cbv iota. apply parse_single, Hk.
  - destruct (truthy (Str n)); [|apply parse_single, Hk].
    simpl to_string. apply parse_joined; assumption.
Qed.




(** X3: in the static mode, a change of the kind to nothing ([undefined],
    [null] or the empty string) leaves the name alone in [manifestName],
    where it is read as the kind from then on: [render] shows the former
    name in the Kind box and nothing in the Name box. *)
Theorem static_kind_cleared_promotes_name
    (c : Component) (k : value) (n : string) (modes : option (list SelectorMode)) :
  mode (selector c) <> Some Dynamic ->
  truthy k = false ->
  pn_name (parseSpinnakerName (manifestName (selector c))) = Str n ->
  let c' := exec (ManifestSelector.handleKindChange k) c in
  manifestName (selector c') = Str n
  /\ exists v, render modes c' = (Ok v, c')
               /\ v_kind v = Str n
               /\ v_name v = Undefined.
Proof.
  intros Hm Hk Hn c'. subst c'.
  pose proof (parse_single n (parsed_name_no_space _ _ Hn)) as Hp.
  destruct c as [p st s nt sb]; destruct s as [m mn kd a l cl cr].
  destruct p as [inc has]. cbn [selector mode manifestName] in *.
  destruct m as [[|]|]; [|contradiction|]; run_all; cbn [manifestName selector];
    unfold packKind; rewrite Hk, Hn;
    (split; [reflexivity|]); eexists; (split; [reflexivity|]);
    cbn [v_kind v_name]; rewrite Hp; split; reflexivity.
Qed.

Lemma static_kind_cleared_promotes_name_witness :
  manifestName (selector (exec (ManifestSelector.handleKindChange Null)
                               (selecting Static Undefined (Str "Deployment foo"))))
  = Str "foo".
Proof.
  apply (static_kind_cleared_promotes_name
           (selecting Static Undefined (Str "Deployment foo")) Null "foo" None);
    [discriminate|reflexivity|reflexivity].
Defined.

(** ** Changing the name *)

(** X4: [handleNameChange] with a name without a space returns and
    leaves the kind read from [manifestName] as it was; the name read from
    it is the new name, and [manifestName] is neither [null] nor
    [undefined] afterwards.  No other field of the selector changes. *)
Theorem handleNameChange_keeps_kind (c : Component) (n : string) :
  no_space n = true ->
  let c' := exec (ManifestSelector.handleNameChange (Str n)) c in
  returns (ManifestSelector.handleNameChange (Str n)) c = true
  /\ parseSpinnakerName (manifestName (selector c'))
     = mkParsedName (pn_kind (parseSpinnakerName (manifestName (selector c)))) (Str n)
  /\ is_nullish (manifestName (selector c')) = false
  /\ set_manifestName (manifestName (selector c)) (selector c') = selector c.
Proof.
  intros Hn c'. subst c'.
  destruct c as [p st s nt sb]; destruct s as [m mn kd a l cl cr].
  destruct p as [inc has]. cbn [selector manifestName].
  assert (Hp : parseSpinnakerName (Str (packName (pn_kind (parseSpinnakerName mn)) (Str n)))
               = mkParsedName (pn_kind (parseSpinnakerName mn)) (Str n)).
  { rewrite parse_kind. set (kk := before_space (or_str mn "")).
    unfold packName. simpl to_string.
    destruct (truthy (Str kk)) eqn:Ht.
    - apply parse_joined; [apply before_space_has_no_space|exact Hn].
    - assert (kk = "") as ->.
      { simpl in Ht. destruct (String.eqb_spec kk ""); [assumption|discriminate]. }
      apply (parse_joined "" n eq_refl Hn). }
  destruct has; run_all; cbn [manifestName selector]; rewrite Hp;
    repeat split; reflexivity.
Qed.

Lemma handleNameChange_keeps_kind_witness :
  parseSpinnakerName
    (manifestName (selector (exec (ManifestSelector.handleNameChange (Str "bar"))
                                  (selecting Static Undefined (Str "Deployment foo")))))
  = mkParsedName (Str "Deployment") (Str "bar").
Proof.
  apply (handleNameChange_keeps_kind
           (selecting Static Undefined (Str "Deployment foo")) "bar").
  reflexivity.
Defined.

(** ** Switching the mode back and forth *)

(** X5: selecting the dynamic mode and then the static mode again
    returns and keeps the kind of the selector but not its name: the kind
    read from [manifestName] is the one read before, the name read from it
    is [undefined], and [kind], [cluster] and [criteria] are [null]. *)
Theorem dynamic_then_static_drops_name (c : Component) :
  let there := exec (ManifestSelector.handleModeSelect Dynamic) c in
  let back := exec (ManifestSelector.handleModeSelect Static) there in
  returns (ManifestSelector.handleModeSelect Dynamic) c = true
  /\ returns (ManifestSelector.handleModeSelect Static) there = true
  /\ mode (selector back) = Some Static
  /\ pn_kind (parseSpinnakerName (manifestName (selector back)))
     = pn_kind (parseSpinnakerName (manifestName (selector c)))
  /\ pn_name (parseSpinnakerName (manifestName (selector back))) = Undefined
  /\ kind (selector back) = Null
  /\ cluster (selector back) = Null
  /\ criteria (selector back) = Null
  /\ account (selector back) = account (selector c)
  /\ location (selector back) = location (selector c).
Proof.
  intros there back. subst back there.
  destruct c as [p st s nt sb]; destruct s as [m mn kd a l cl cr].
  destruct p as [inc has].
  assert (Hp : parseSpinnakerName
                 (packKind (pn_kind (parseSpinnakerName mn))
                           (pn_name (parseSpinnakerName Null)))
               = mkParsedName (pn_kind (parseSpinnakerName mn)) Undefined).
  { rewrite parse_kind. set (kk := before_space (or_str mn "")).
    unfold packKind. change (pn_name (parseSpinnakerName Null)) with Undefined.
    destruct (truthy (Str kk)) eqn:Ht; simpl truthy; cbv iota.
    - apply parse_single, before_space_has_no_space.
    - assert (kk = "") as ->.
      { simpl in Ht. destruct (String.eqb_spec kk ""); [assumption|discriminate]. }
      reflexivity. }
  destruct has; run_all; cbn [manifestName selector]; rewrite Hp;
    repeat split; reflexivity.
Qed.

(** X6: for a selector whose kind is a non-empty string without a
    space, selecting the static mode and then the dynamic mode again
    returns and gives the kind back, with [manifestName] [null]; the
    cluster and the criteria are gone. *)
Theorem static_then_dynamic_keeps_kind (c : Component) (k : string) :
  kind (selector c) = Str k ->
  k <> "" ->
  no_space k = true ->
  let there := exec (ManifestSelector.handleModeSelect Static) c in
  let back := exec (ManifestSelector.handleModeSelect Dynamic) there in
  returns (ManifestSelector.handleModeSelect Static) c = true
  /\ returns (ManifestSelector.handleModeSelect Dynamic) there = true
  /\ mode (selector back) = Some Dynamic
  /\ kind (selector back) = Str k
  /\ manifestName (selector back) = Null
  /\ cluster (selector back) = Null
  /\ criteria (selector back) = Null.
Proof.
  intros Hkind Hne Hk there back. subst back there.
  destruct c as [p st s nt sb]; destruct s as [m mn kd a l cl cr].
  destruct p as [inc has]. cbn [selector kind] in Hkind. subst kd.
  pose proof (packKind_parse k mn Hne Hk) as Hp. cbv zeta in Hp.
  destruct has; run_all; cbn [manifestName selector]; rewrite Hp;
    repeat split; reflexivity.
Qed.

Lemma static_then_dynamic_keeps_kind_witness :
  kind (selector (exec (ManifestSelector.handleModeSelect Dynamic)
                    (exec (ManifestSelector.handleModeSelect Static)
                       (selecting Dynamic (Str "Deployment") Null))))
  = Str "Deployment".
Proof.
  apply (static_then_dynamic_keeps_kind
           (selecting Dynamic (Str "Deployment") Null) "Deployment");
    [reflexivity|discriminate|reflexivity].
Defined.

(** ** More on changing the account *)







(** ** Changing the namespace *)


(** ** The end of a lookup *)

(** X10: the subscriber of the search returns, stores the names it is
    given and turns [loading] off.  A [manifestName] that is [null] or
    [undefined] becomes the string of one space, which reads as the empty
    kind with the empty name, and the owner is told; any other
    [manifestName] is kept and the owner is not told.  Afterwards
    [manifestName] is never [null] or [undefined]. *)
Theorem searchSubscriber_effect (c : Component) (names : list string) :
  let c' := exec (ManifestSelector.searchSubscriber names) c in
  returns (ManifestSelector.searchSubscriber names) c = true
  /\ resources (state c') = names
  /\ loading (state c') = false
  /\ is_nullish (manifestName (selector c')) = false
  /\ (is_nullish (manifestName (selector c)) = true ->
      selector c' = set_manifestName (Str " ") (selector c)
      /\ parseSpinnakerName (manifestName (selector c')) = mkParsedName (Str "") (Str "")
      /\ (hasOnChange (props c) = true ->
          notified c' = (notified c ++ [selector c'])%list))
  /\ (is_nullish (manifestName (selector c)) = false ->
      selector c' = selector c /\ notified c' = notified c).
Proof.
  intros c'. subst c'.
  destruct c as [p st s nt sb]; destruct s as [m mn kd a l cl cr].
  destruct p as [inc has]. destruct st as [acs nss ks rs ld].
  destruct mn as [| |s]; destruct has; run_all; cbn [is_nullish];
    repeat split; try reflexivity; try discriminate; intros; discriminate.
Qed.


Lemma searchSubscriber_effect_witness :
  selector (exec (ManifestSelector.searchSubscriber ["Deployment foo"])
                 (selecting Static Undefined (Str "Deployment foo")))
  = selector (selecting Static Undefined (Str "Deployment foo")).
Proof.
  apply (searchSubscriber_effect
           (selecting Static Undefined (Str "Deployment foo")) ["Deployment foo"]).
  reflexivity.
Defined.

(** ** The three outcomes of [search] *)

(** X11: [search] raises exactly when the account is [null]; it
    resolves on the spot, with no names, exactly when the account is a
    string in which ["${"] occurs; in every other case, that of the
    [undefined] account included, it calls the kind-search service once with
    the three values it was given. *)
Theorem search_outcomes (k ns acct : value) :
  (ManifestSelector.search k ns acct = ManifestSelector.Raised <-> acct = Null)
  /\ (ManifestSelector.search k ns acct = ManifestSelector.Resolved []
      <-> exists pre post, acct = Str (pre ++ "${" ++ post))
  /\ (acct <> Null ->
      (forall pre post, acct <> Str (pre ++ "${" ++ post)) ->
      ManifestSelector.serviceCalls (ManifestSelector.search k ns acct) = [(k, ns, acct)]).
Proof.
  unfold ManifestSelector.search, isExpression.
  destruct acct as [| |s].
  - change (includes "${" "") with false. cbv iota.
    split; [split; discriminate|]. split; [|reflexivity].
    split; [discriminate|intros (pre & post & H); discriminate].
  - split; [split; reflexivity|]. split; [|intros H; contradiction].
    split; [discriminate|intros (pre & post & H); discriminate].
  - destruct (includes "${" s) eqn:E.
    + apply includes_spec in E. destruct E as (pre & post & ->).
      split; [split; discriminate|]. split.
      * split; [intros _; exists pre, post; reflexivity|reflexivity].
      * intros _ H. exfalso. exact (H pre post eq_refl).
    + split; [split; discriminate|]. split; [|reflexivity].
      split; [discriminate|].
      intros (pre & post & [= ->]).
      assert (includes "${" (pre ++ "${" ++ post) = true) as H
        by (apply includes_spec; exists pre, post; reflexivity).
      change ("${" ++ post) with (String "$" (String "{" post)) in H.
      exfalso. congruence.
Qed.

Lemma search_outcomes_witness :
  ManifestSelector.serviceCalls
    (ManifestSelector.search (Str "deployment") (Str "default") Undefined)
  = [(Str "deployment", Str "default", Undefined)].
Proof.
  apply (search_outcomes (Str "deployment") (Str "default") Undefined);
    [discriminate|intros pre post; discriminate].
Defined.

(** ** What the form shows *)

(** The view in full. *)
Lemma render_value (c : Component) (modes : option (list SelectorMode)) :
  let m := match mode (selector c) with Some m => m | None => Static end in
  let ms := match modes with Some l => l | None => [m] end in
  render modes c
  = (Ok (mkView (match m with
                 | Static => pn_kind (parseSpinnakerName (manifestName (selector c)))
                 | Dynamic => kind (selector c)
                 end)
                (pn_name (parseSpinnakerName (manifestName (selector c))))
                (resourceNames (resources (state c)))
                (Nat.ltb 1 (List.length ms))
                (existsb (SelectorMode_eqb Static) ms && SelectorMode_eqb m Static)
                (existsb (SelectorMode_eqb Dynamic) ms && SelectorMode_eqb m Dynamic)),
     c).
Proof.
  destruct c as [p st s nt sb]; destruct s as [m mn kd a l cl cr].
  destruct m as [[|]|]; reflexivity.
Qed.

(** X12: [render] never fails and changes nothing.  The Name field and
    the dynamic fields (cluster and target) are never shown together.  When
    the owner gives no list of modes, the choice of the mode is hidden and
    exactly one of the two is shown: the dynamic fields for the dynamic
    mode, the Name field otherwise, an unset mode included.  The Kind box
    holds the kind read from [manifestName] when the Name field is shown,
    and the kind of the selector when the dynamic fields are. *)
Theorem render_fields (c : Component) (modes : option (list SelectorMode)) :
  exists v,
    render modes c = (Ok v, c)
    /\ v_nameField v && v_dynamicFields v = false
    /\ (modes = None ->
        v_modeChoice v = false
        /\ v_nameField v = negb (v_dynamicFields v)
        /\ (v_dynamicFields v = true <-> mode (selector c) = Some Dynamic))
    /\ (v_nameField v = true ->
        v_kind v = pn_kind (parseSpinnakerName (manifestName (selector c))))
    /\ (v_dynamicFields v = true -> v_kind v = kind (selector c))
    /\ v_name v = pn_name (parseSpinnakerName (manifestName (selector c)))
    /\ v_resourceNames v = resourceNames (resources (state c)).
Proof.
  pose proof (render_value c modes) as Hr. cbv zeta in Hr.
  eexists. split; [exact Hr|].
  cbn [v_nameField v_dynamicFields v_modeChoice v_kind v_name v_resourceNames].
  destruct (mode (selector c)) as [[|]|] eqn:Em; cbn [SelectorMode_eqb];
    rewrite ?andb_false_r, ?andb_true_r;
    (split; [reflexivity|]);
    (split; [intros ->; cbn; repeat split; try reflexivity; try discriminate;
             intros [=]|]);
    repeat split; try reflexivity; try discriminate.
Qed.

Lemma render_fields_witness :
  exists v,
    render None (selecting Dynamic (Str "Deployment") Null)
    = (Ok v, selecting Dynamic (Str "Deployment") Null)
    /\ v_dynamicFields v = true /\ v_nameField v = false /\ v_modeChoice v = false.
Proof.
  destruct (render_fields (selecting Dynamic (Str "Deployment") Null) None)
    as (v & Hr & _ & Hm & _).
  destruct (Hm eq_refl) as (Hc & Hn & Hd).
  exists v. split; [exact Hr|].
  assert (v_dynamicFields v = true) as E by (apply Hd; reflexivity).
  rewrite Hn, E. repeat split; assumption.
Defined.

Lemma render_resourceNames (c : Component) (modes : option (list SelectorMode)) :
  exists v, render modes c = (Ok v, c)
            /\ v_resourceNames v = resourceNames (resources (state c)).
Proof.
  pose proof (render_value c modes) as Hr. cbv zeta in Hr.
  eexists. split; [exact Hr|reflexivity].
Qed.

Lemma searchSubscriber_resources (c : Component) (names : list string) :
  resources (state (exec (ManifestSelector.searchSubscriber names) c)) = names.
Proof.
  destruct c as [p st s nt sb]; destruct s as [m mn kd a l cl cr].
  destruct p as [inc has]. destruct st as [acs nss ks rs ld].
  destruct mn as [| |s]; destruct has; reflexivity.
Qed.

(** X13: from the service to the Name box.  For a search whose account
    is not an expression and an answer whose names are a kind, a space and a
    short name, neither with a space in it, the lookup resolves, and once
    the subscriber has stored what it resolved with, the options that
    [render] puts into the Name box are the short names of the answer, each
    as often as it was found. *)
Theorem shown_names_are_short_names
    (k ns acct : value) (found : list (string * string))
    (c : Component) (modes : option (list SelectorMode)) :
  isExpression acct = Ok false ->
  (forall kn, In kn found -> no_space (fst kn) = true /\ no_space (snd kn) = true) ->
  let answer := map (fun kn => mkResult (fst kn ++ " " ++ snd kn)) found in
  exists names v,
    ManifestSelector.resolution answer (ManifestSelector.search k ns acct) = Some names
    /\ fst (render modes (exec (ManifestSelector.searchSubscriber names) c)) = Ok v
    /\ Permutation (map (fun kn => Str (snd kn)) found) (v_resourceNames v).
Proof.
  intros He Hf answer.
  exists (sort (map res_name answer)).
  destruct (render_resourceNames (exec (ManifestSelector.searchSubscriber
                                          (sort (map res_name answer))) c) modes)
    as (v & Hr & Hv).
  exists v. split; [unfold ManifestSelector.search; rewrite He; reflexivity|].
  split; [rewrite Hr; reflexivity|].
  rewrite Hv.
  rewrite searchSubscriber_resources.
  unfold resourceNames.
  apply perm_trans
    with (map (fun r => pn_name (parseSpinnakerName (Str r))) (map res_name answer)).
  - subst answer. rewrite !map_map. cbn [res_name].
    assert (E : map (fun kn => Str (snd kn)) found
                = map (fun x => pn_name (parseSpinnakerName
                                           (Str (fst x ++ " " ++ snd x)))) found).
    { apply map_ext_in. intros kn Hin. destruct (Hf kn Hin) as [Hk Hn].
      rewrite (parse_joined _ _ Hk Hn). reflexivity. }
    rewrite E. apply Permutation_refl.
  - apply Permutation_map, sort_perm.
Qed.

Lemma shown_names_are_short_names_witness :
  exists names v,
    ManifestSelector.resolution
      (map (fun kn => mkResult (fst kn ++ " " ++ snd kn))
           [("deployment", "web"); ("deployment", "api")])
      (ManifestSelector.search (Str "deployment") (Str "default") (Str "my-account"))
    = Some names
    /\ fst (render None (exec (ManifestSelector.searchSubscriber names) unassigned)) = Ok v
    /\ Permutation [Str "web"; Str "api"] (v_resourceNames v).
Proof.
  apply (shown_names_are_short_names
           (Str "deployment") (Str "default") (Str "my-account")
           [("deployment", "web"); ("deployment", "api")] unassigned None).
  - reflexivity.
  - intros kn [<-|[<-|[]]]; split; reflexivity.
Defined.

(** ** More on loading the accounts *)










(** * The names of the executions *)

Section ExecutionNames.

Import Executions.

Variable configurations : list PipelineConfig.

Lemma rename_ids (e : Execution) :
  ex_id (rename configurations e) = ex_id e
  /\ ex_pipelineConfigId (rename configurations e) = ex_pipelineConfigId e.
Proof.
  unfold rename. destruct (truthy (ex_pipelineConfigId e)); [|split; reflexivity].
  destruct (find _ configurations); split; reflexivity.
Qed.

Lemma rename_unmatched (e : Execution) :
  truthy (ex_pipelineConfigId e) = false
  \/ (forall cfg, In cfg configurations -> cfg_id cfg <> ex_pipelineConfigId e) ->
  rename configurations e = e.
Proof.
  unfold rename. intros [-> | Hno]; [reflexivity|].
  destruct (truthy (ex_pipelineConfigId e)); [|reflexivity].
  destruct (find _ configurations) as [cfg|] eqn:Hf; [|reflexivity].
  apply find_some in Hf. destruct Hf as [Hin Heq].
  apply strict_eq_true in Heq. exfalso. exact (Hno cfg Hin Heq).
Qed.

Lemma find_unique (cfg : PipelineConfig) :
  NoDup (map cfg_id configurations) ->
  In cfg configurations ->
  find (fun c => strict_eq (cfg_id c) (cfg_id cfg)) configurations = Some cfg.
Proof.
  induction configurations as [|c0 cs IH]; intros Hnd Hin; [contradiction|].
  cbn [map] in Hnd. inversion Hnd as [|x l Hnotin Hnd' E]; subst.
  cbn [find]. destruct (strict_eq (cfg_id c0) (cfg_id cfg)) eqn:Heq.
  - apply strict_eq_true in Heq. destruct Hin as [->|Hin]; [reflexivity|].
    exfalso. apply Hnotin. rewrite Heq. apply in_map. exact Hin.
  - destruct Hin as [->|Hin]; [|exact (IH Hnd' Hin)].
    rewrite (proj2 (strict_eq_true _ _) eq_refl) in Heq. discriminate.
Qed.

Lemma rename_matched (e : Execution) (cfg : PipelineConfig) :
  NoDup (map cfg_id configurations) ->
  In cfg configurations ->
  cfg_id cfg = ex_pipelineConfigId e ->
  truthy (ex_pipelineConfigId e) = true ->
  rename configurations e
  = mkExecution (ex_id e) (ex_pipelineConfigId e) (cfg_name cfg).
Proof.
  intros Hnd Hin Heq Ht. unfold rename. rewrite Ht, <- Heq.
  rewrite (find_unique cfg Hnd Hin). reflexivity.
Qed.

Lemma rename_twice (e : Execution) :
  rename configurations (rename configurations e) = rename configurations e.
Proof.
  unfold rename at 2 3.
  destruct (truthy (ex_pipelineConfigId e)) eqn:Ht.
  - destruct (find _ configurations) as [cfg|] eqn:Hf.
    + unfold rename. cbn [ex_pipelineConfigId ex_id]. rewrite Ht, Hf. reflexivity.
    + unfold rename. rewrite Ht, Hf. reflexivity.
  - unfold rename. rewrite Ht. reflexivity.
Qed.

End ExecutionNames.

(** X17: when no two pipeline configurations have the same identifier,
    [normalizeExecutionNames] leaves as many executions as there were, in
    the same order and with the same identifiers; an execution whose
    configuration identifier is not empty and is that of a configuration
    takes the name of this configuration, and an execution without such an
    identifier, or with one that no configuration has, is left as it
    was. *)
Theorem normalizeExecutionNames_names
    (loadFailure : bool) (executions : list Executions.Execution)
    (configurations : list Executions.PipelineConfig) (f : Executions.Flags) :
  NoDup (map Executions.cfg_id configurations) ->
  exists after,
    snd (Executions.normalizeExecutionNames
           loadFailure (Some executions) (Some configurations) f) = Some after
    /\ List.length after = List.length executions
    /\ map Executions.ex_id after = map Executions.ex_id executions
    /\ map Executions.ex_pipelineConfigId after
       = map Executions.ex_pipelineConfigId executions
    /\ forall i e e',
         nth_error executions i = Some e ->
         nth_error after i = Some e' ->
         (forall cfg, In cfg configurations ->
                      Executions.cfg_id cfg = Executions.ex_pipelineConfigId e ->
                      truthy (Executions.ex_pipelineConfigId e) = true ->
                      Executions.ex_name e' = Executions.cfg_name cfg)
         /\ (truthy (Executions.ex_pipelineConfigId e) = false
             \/ (forall cfg, In cfg configurations ->
                             Executions.cfg_id cfg <> Executions.ex_pipelineConfigId e) ->
             e' = e).
Proof.
  intros Hnd. exists (map (Executions.rename configurations) executions).
  split; [reflexivity|]. split; [apply length_map|].
  split; [|split].
  - rewrite map_map. apply map_ext. intros e. apply rename_ids.
  - rewrite map_map. apply map_ext. intros e. apply rename_ids.
  - intros i e e' He He'.
    rewrite nth_error_map, He in He'. cbn in He'. injection He' as <-. split.
    + intros cfg Hin Heq Ht.
      rewrite (rename_matched configurations e cfg Hnd Hin Heq Ht). reflexivity.
    + apply rename_unmatched.
Qed.

Lemma normalizeExecutionNames_names_witness :
  exists after,
    snd (Executions.normalizeExecutionNames false
           (Some [Executions.mkExecution (Str "e1") (Str "p1") (Str "old name");
                  Executions.mkExecution (Str "e2") Undefined (Str "ad hoc")])
           (Some [Executions.mkConfig (Str "p1") (Str "deploy to prod")])
           (Executions.mkFlags true None))
    = Some after
    /\ List.length after = 2.
Proof.
  destruct (normalizeExecutionNames_names false
              [Executions.mkExecution (Str "e1") (Str "p1") (Str "old name");
               Executions.mkExecution (Str "e2") Undefined (Str "ad hoc")]
              [Executions.mkConfig (Str "p1") (Str "deploy to prod")]
              (Executions.mkFlags true None))
    as (after & H1 & H2 & _).
  - repeat constructor. intros [].
  - exists after. split; [exact H1|exact H2].
Defined.

(** X18: [normalizeExecutionNames] run again on what it left does
    nothing more, to the executions and to the flags. *)
Theorem normalizeExecutionNames_twice
    (loadFailure : bool) (executions : option (list Executions.Execution))
    (configurations : option (list Executions.PipelineConfig)) (f : Executions.Flags) :
  let once := Executions.normalizeExecutionNames loadFailure executions configurations f in
  Executions.normalizeExecutionNames loadFailure (snd once) configurations (fst once)
  = once.
Proof.
  unfold Executions.normalizeExecutionNames. cbn [fst snd].
  f_equal; [destruct loadFailure; reflexivity|].
  destruct executions as [es|]; [|reflexivity]. cbn [option_map]. f_equal.
  rewrite map_map. apply map_ext. intros e. apply rename_twice.
Qed.

Lemma modeDelegate_one_handler_witness :
  exists h,
    ManifestSelector.modeDelegate
      (ManifestSelector.construct
         (mkProps None true)
         (mkSelector None Undefined Undefined Undefined Undefined Undefined Undefined))
    = (Ok h,
       ManifestSelector.construct
         (mkProps None true)
         (mkSelector None Undefined Undefined Undefined Undefined Undefined Undefined))
    /\ handles h Static = true.
Proof.
  destruct (modeDelegate_one_handler
              (ManifestSelector.construct
                 (mkProps None true)
                 (mkSelector None Undefined Undefined Undefined Undefined Undefined
                             Undefined)))
    as (h & Hr & _ & Hh & _).
  exists h. split; [exact Hr|exact Hh].
Defined.
